(** * GSP routes of the UK PV national/GSP API (src/gsp.py)

    The six route handlers of [gsp.py] are thin sequences of calls to
    collaborators that live outside the file ([database], [cache], the
    logger, the data-model library).  They are embedded as programs over
    the signature [Call] of those collaborators; a program is run against
    an arbitrary implementation [env] of the signature, which threads a
    world (database, audit log, cache, log output) and may raise at any
    call.  A run yields the handler's result, the final world and the
    trace of collaborator calls with their answers. *)

From Stdlib Require Import ZArith List Ascii String Bool Lia.
Import ListNotations.

Set Implicit Arguments.

(** ** Route handlers known to the router *)

Inductive Handler : Type :=
| h_get_all_available_forecasts
| h_get_forecasts_for_a_specific_gsp_old_route
| h_get_forecasts_for_a_specific_gsp
| h_get_truths_for_all_gsps
| h_get_truths_for_a_specific_gsp_old_route
| h_get_truths_for_a_specific_gsp.

Definition Handler_eq_dec (a b : Handler) : {a = b} + {a <> b}.
Proof. decide equality. Defined.

(** Types owned by the frameworks and the data-model library. *)
Class Externals : Type := {
  Request : Type;
  Session : Type;
  Auth0User : Type;
  Location : Type;
  Power : Type
}.

Section Api.

Context {ext : Externals}.

(** ** Data model (nowcasting_datamodel.models), as far as the routes
    and their contracts look into it. *)

Record ForecastValue : Type := {
  target_time : Z;
  expected_power_generation_megawatts : Power
}.

Record Forecast : Type := {
  forecast_location : Location;
  forecast_values : list ForecastValue
}.

Record ManyForecasts : Type := { forecasts : list Forecast }.

Record GSPYield : Type := {
  datetime_utc : Z;
  solar_generation_kw : Power;
  yield_regime : string
}.

Record LocationWithGSPYields : Type := {
  location : Location;
  gsp_yields : list GSPYield
}.

(** [Union[Forecast, List[ForecastValue]]] *)
Inductive ForecastOrValues : Type :=
| IsForecast (f : Forecast)
| IsValues (vs : list ForecastValue).

(** The [response_model] of each route. *)
Definition Response (h : Handler) : Type :=
  match h with
  | h_get_all_available_forecasts => ManyForecasts
  | h_get_forecasts_for_a_specific_gsp_old_route => ForecastOrValues
  | h_get_forecasts_for_a_specific_gsp => ForecastOrValues
  | h_get_truths_for_all_gsps => list LocationWithGSPYields
  | h_get_truths_for_a_specific_gsp_old_route => list GSPYield
  | h_get_truths_for_a_specific_gsp => list GSPYield
  end.

(** ** Python values that travel as keyword arguments or are
    interpolated into log lines *)

Inductive PyValue : Type :=
| PyRequest (r : Request)
| PySession (s : Session)
| PyUser (u : Auth0User)
| PyInt (z : Z)
| PyOptInt (z : option Z)
| PyOptBool (b : option bool)
| PyOptStr (s : option string).

Definition Kwargs : Type := list (string * PyValue).

(** An f-string: literal text and formatted values, in order. *)
Inductive Fragment : Type :=
| Text (s : string)
| Fmt (v : PyValue).

Definition LogMsg : Type := list Fragment.

(** ** The collaborators' signature

    One constructor per imported function the handlers call, indexed by
    the type of what it returns.  [cache_check] and [cache_populate] are
    the two steps of the cache layer (see [cache_response]). *)

Inductive Call : Type -> Type :=
| save_api_call_to_db (session : Session) (user : Auth0User) (request : Request)
    : Call unit
| logger_info (msg : LogMsg) : Call unit
| logger_debug (msg : LogMsg) : Call unit
| get_forecasts_from_database (session : Session) (historic : option bool)
    : Call ManyForecasts
| normalize (forecasts : ManyForecasts) : Call ManyForecasts
| get_latest_forecast_values_for_a_specific_gsp_from_database
    (session : Session) (gsp_id : Z) (forecast_horizon_minutes : option Z)
    : Call ForecastOrValues
| get_truth_values_for_all_gsps_from_database
    (session : Session) (regime : option string)
    : Call (list LocationWithGSPYields)
| get_truth_values_for_a_specific_gsp_from_database
    (session : Session) (gsp_id : Z) (regime : option string)
    : Call (list GSPYield)
| cache_check (h : Handler) (kwargs : Kwargs) : Call (option (Response h))
| cache_populate (h : Handler) (kwargs : Kwargs) (r : Response h) : Call unit.

(** ** Programs: sequences of collaborator calls *)

Inductive Prog (A : Type) : Type :=
| Ret (a : A)
| Do (X : Type) (c : Call X) (k : X -> Prog A).

Arguments Ret {A} a.
Arguments Do {A X} c k.

Fixpoint bind {A B : Type} (p : Prog A) (f : A -> Prog B) : Prog B :=
  match p with
  | Ret a => f a
  | Do c k => Do c (fun x => bind (k x) f)
  end.

Definition call {X : Type} (c : Call X) : Prog X := Do c Ret.

Notation "x <- p ;; q" := (bind p (fun x => q))
  (at level 61, p at next level, right associativity).
Notation "p ;; q" := (bind p (fun _ => q))
  (at level 61, right associativity).

(** ** The cache decorator *)

(** Modelled from the spec: [cache_response] of cache.py, which is not
    among the sources.  The spec gives the pipeline around each handler
    as check-cache, (hit: return), log-call, execute-query,
    populate-cache: the layer first looks the request up; a hit is
    returned at once without running the handler; on a miss the handler
    runs and its response is stored before it is returned.  Keying and
    expiry are the cache's own business: both steps receive the handler
    and all keyword arguments and are answered by the environment. *)
Definition cache_response (h : Handler) (kwargs : Kwargs)
    (func : Prog (Response h)) : Prog (Response h) :=
  cached <- call (cache_check h kwargs) ;;
  match cached with
  | Some r => Ret r
  | None =>
      r <- func ;;
      call (cache_populate h kwargs r) ;;
      Ret r
  end.

(** ** The handlers of gsp.py

    [f__wrapped] is the function as written under the decorators (what
    Python's [functools.wraps] keeps as [__wrapped__]); [f] is what the
    module-level name is bound to, the function under [cache_response].
    [router.get] registers the function and hands it back unchanged. *)

Section Handlers.
Variables (request : Request) (session : Session) (user : Auth0User).

(** GET /forecast/all *)
Definition get_all_available_forecasts__wrapped (historic : option bool)
    : Prog ManyForecasts :=
  call (save_api_call_to_db session user request) ;;
  call (logger_info
          [Text "Get forecasts for all gsps. The option is historic=";
           Fmt (PyOptBool historic); Text " for user "; Fmt (PyUser user)]) ;;
  forecasts <- call (get_forecasts_from_database session historic) ;;
  forecasts <- call (normalize forecasts) ;;
  Ret forecasts.

Definition get_all_available_forecasts (historic : option bool)
    : Prog ManyForecasts :=
  cache_response h_get_all_available_forecasts
    [("request", PyRequest request); ("historic", PyOptBool historic);
     ("session", PySession session); ("user", PyUser user)]%string
    (get_all_available_forecasts__wrapped historic).

(** GET /{gsp_id}/forecast *)
Definition get_forecasts_for_a_specific_gsp__wrapped (gsp_id : Z)
    (forecast_horizon_minutes : option Z) : Prog ForecastOrValues :=
  call (save_api_call_to_db session user request) ;;
  call (logger_info
          [Text "Get forecasts for gsp id "; Fmt (PyInt gsp_id);
           Text " forecast of forecast with only values."]) ;;
  call (logger_info [Text "This is for user "; Fmt (PyUser user)]) ;;
  forecast_values_for_specific_gsp <-
    call (get_latest_forecast_values_for_a_specific_gsp_from_database
            session gsp_id forecast_horizon_minutes) ;;
  call (logger_debug [Text "Got forecast values for a specific gsp."]) ;;
  Ret forecast_values_for_specific_gsp.

Definition get_forecasts_for_a_specific_gsp (gsp_id : Z)
    (forecast_horizon_minutes : option Z) : Prog ForecastOrValues :=
  cache_response h_get_forecasts_for_a_specific_gsp
    [("request", PyRequest request); ("gsp_id", PyInt gsp_id);
     ("session", PySession session);
     ("forecast_horizon_minutes", PyOptInt forecast_horizon_minutes);
     ("user", PyUser user)]%string
    (get_forecasts_for_a_specific_gsp__wrapped gsp_id forecast_horizon_minutes).

(** GET /forecast/{gsp_id}, kept out of the schema *)
Definition get_forecasts_for_a_specific_gsp_old_route__wrapped (gsp_id : Z)
    (forecast_horizon_minutes : option Z) : Prog ForecastOrValues :=
  get_forecasts_for_a_specific_gsp gsp_id forecast_horizon_minutes.

Definition get_forecasts_for_a_specific_gsp_old_route (gsp_id : Z)
    (forecast_horizon_minutes : option Z) : Prog ForecastOrValues :=
  cache_response h_get_forecasts_for_a_specific_gsp_old_route
    [("request", PyRequest request); ("gsp_id", PyInt gsp_id);
     ("session", PySession session);
     ("forecast_horizon_minutes", PyOptInt forecast_horizon_minutes);
     ("user", PyUser user)]%string
    (get_forecasts_for_a_specific_gsp_old_route__wrapped gsp_id
       forecast_horizon_minutes).

(** GET /pvlive/all *)
Definition get_truths_for_all_gsps__wrapped (regime : option string)
    : Prog (list LocationWithGSPYields) :=
  call (save_api_call_to_db session user request) ;;
  call (logger_info
          [Text "Get PV Live estimates values for all gsp id and regime ";
           Fmt (PyOptStr regime); Text " for user "; Fmt (PyUser user)]) ;;
  call (get_truth_values_for_all_gsps_from_database session regime).

Definition get_truths_for_all_gsps (regime : option string)
    : Prog (list LocationWithGSPYields) :=
  cache_response h_get_truths_for_all_gsps
    [("request", PyRequest request); ("regime", PyOptStr regime);
     ("session", PySession session); ("user", PyUser user)]%string
    (get_truths_for_all_gsps__wrapped regime).

(** GET /{gsp_id}/pvlive *)
Definition get_truths_for_a_specific_gsp__wrapped (gsp_id : Z)
    (regime : option string) : Prog (list GSPYield) :=
  call (save_api_call_to_db session user request) ;;
  call (logger_info
          [Text "Get PV Live estimates values for gsp id ";
           Fmt (PyInt gsp_id); Text " and regime "; Fmt (PyOptStr regime);
           Text " for user "; Fmt (PyUser user)]) ;;
  call (get_truth_values_for_a_specific_gsp_from_database session gsp_id regime).

Definition get_truths_for_a_specific_gsp (gsp_id : Z)
    (regime : option string) : Prog (list GSPYield) :=
  cache_response h_get_truths_for_a_specific_gsp
    [("request", PyRequest request); ("gsp_id", PyInt gsp_id);
     ("regime", PyOptStr regime); ("session", PySession session);
     ("user", PyUser user)]%string
    (get_truths_for_a_specific_gsp__wrapped gsp_id regime).

(** GET /pvlive/{gsp_id}, kept out of the schema *)
Definition get_truths_for_a_specific_gsp_old_route__wrapped (gsp_id : Z)
    (regime : option string) : Prog (list GSPYield) :=
  get_truths_for_a_specific_gsp gsp_id regime.

Definition get_truths_for_a_specific_gsp_old_route (gsp_id : Z)
    (regime : option string) : Prog (list GSPYield) :=
  cache_response h_get_truths_for_a_specific_gsp_old_route
    [("request", PyRequest request); ("gsp_id", PyInt gsp_id);
     ("regime", PyOptStr regime); ("session", PySession session);
     ("user", PyUser user)]%string
    (get_truths_for_a_specific_gsp_old_route__wrapped gsp_id regime).

End Handlers.

(** ** Requests and parameter binding

    FastAPI binds the path parameter, the query parameters and the two
    dependencies to the handler's keyword arguments; a query parameter the
    request leaves out takes the default written in the signature
    ([historic = True], [forecast_horizon_minutes = None],
    [regime = None]). *)

Record Query : Type := {
  q_historic : option bool;
  q_forecast_horizon_minutes : option Z;
  q_regime : option string
}.

Record Params : Type := {
  p_request : Request;
  p_session : Session;
  p_user : Auth0User;
  p_gsp_id : Z;
  p_historic : option bool;
  p_forecast_horizon_minutes : option Z;
  p_regime : option string
}.

Definition bind_params (request : Request) (session : Session)
    (user : Auth0User) (gsp_id : Z) (q : Query) : Params :=
  {| p_request := request;
     p_session := session;
     p_user := user;
     p_gsp_id := gsp_id;
     p_historic :=
       match q_historic q with Some b => Some b | None => Some true end;
     p_forecast_horizon_minutes := q_forecast_horizon_minutes q;
     p_regime := q_regime q |}.

(** The function as written, with the parameters it declares. *)
Definition handler_body (h : Handler) (p : Params) : Prog (Response h) :=
  match h return Prog (Response h) with
  | h_get_all_available_forecasts =>
      get_all_available_forecasts__wrapped
        (p_request p) (p_session p) (p_user p) (p_historic p)
  | h_get_forecasts_for_a_specific_gsp_old_route =>
      get_forecasts_for_a_specific_gsp_old_route__wrapped
        (p_request p) (p_session p) (p_user p) (p_gsp_id p)
        (p_forecast_horizon_minutes p)
  | h_get_forecasts_for_a_specific_gsp =>
      get_forecasts_for_a_specific_gsp__wrapped
        (p_request p) (p_session p) (p_user p) (p_gsp_id p)
        (p_forecast_horizon_minutes p)
  | h_get_truths_for_all_gsps =>
      get_truths_for_all_gsps__wrapped
        (p_request p) (p_session p) (p_user p) (p_regime p)
  | h_get_truths_for_a_specific_gsp_old_route =>
      get_truths_for_a_specific_gsp_old_route__wrapped
        (p_request p) (p_session p) (p_user p) (p_gsp_id p) (p_regime p)
  | h_get_truths_for_a_specific_gsp =>
      get_truths_for_a_specific_gsp__wrapped
        (p_request p) (p_session p) (p_user p) (p_gsp_id p) (p_regime p)
  end.

(** What the router calls: the function under its cache decorator. *)
Definition endpoint (h : Handler) (p : Params) : Prog (Response h) :=
  match h return Prog (Response h) with
  | h_get_all_available_forecasts =>
      get_all_available_forecasts
        (p_request p) (p_session p) (p_user p) (p_historic p)
  | h_get_forecasts_for_a_specific_gsp_old_route =>
      get_forecasts_for_a_specific_gsp_old_route
        (p_request p) (p_session p) (p_user p) (p_gsp_id p)
        (p_forecast_horizon_minutes p)
  | h_get_forecasts_for_a_specific_gsp =>
      get_forecasts_for_a_specific_gsp
        (p_request p) (p_session p) (p_user p) (p_gsp_id p)
        (p_forecast_horizon_minutes p)
  | h_get_truths_for_all_gsps =>
      get_truths_for_all_gsps
        (p_request p) (p_session p) (p_user p) (p_regime p)
  | h_get_truths_for_a_specific_gsp_old_route =>
      get_truths_for_a_specific_gsp_old_route
        (p_request p) (p_session p) (p_user p) (p_gsp_id p) (p_regime p)
  | h_get_truths_for_a_specific_gsp =>
      get_truths_for_a_specific_gsp
        (p_request p) (p_session p) (p_user p) (p_gsp_id p) (p_regime p)
  end.

(** The two routes kept for backward compatibility. *)
Definition deprecated (h : Handler) : bool :=
  match h with
  | h_get_forecasts_for_a_specific_gsp_old_route
  | h_get_truths_for_a_specific_gsp_old_route => true
  | _ => false
  end.

(** ** Running a program

    Python has no checked errors: every collaborator call either returns
    or raises, and a handler without [try] stops at the first raise. *)

Section Semantics.

Variables Exn World : Type.

Inductive Answer (X : Type) : Type :=
| Returned (x : X)
| Raised (e : Exn).

Arguments Raised {X} e.

Definition Env : Type := forall X : Type, Call X -> World -> Answer X * World.

Inductive Event : Type :=
| Ev (X : Type) (c : Call X) (a : Answer X).

Record Outcome (A : Type) : Type := {
  result : Answer A;
  final : World;
  trace : list Event
}.

(** The outcome [o] of what followed an exchange [ev]. *)
Definition after {A : Type} (ev : Event) (o : Outcome A) : Outcome A :=
  match o with
  | Build_Outcome r w t => {| result := r; final := w; trace := ev :: t |}
  end.

Variable env : Env.

Fixpoint run {A : Type} (p : Prog A) (w : World) : Outcome A :=
  match p with
  | Ret a => {| result := Returned a; final := w; trace := [] |}
  | Do c k =>
      match env c w with
      | (Returned x, w') => after (Ev c (Returned x)) (run (k x) w')
      | (Raised e, w') =>
          {| result := Raised e; final := w'; trace := [Ev c (Raised e)] |}
      end
  end.

(** [c], called in world [w], returns [x] and leaves world [w']. *)
Definition answers {X : Type} (c : Call X) (w : World) (x : X) (w' : World) : Prop :=
  env c w = (Returned x, w').

End Semantics.

Arguments Raised {Exn X} e.
Arguments Returned {Exn X} x.

(** ** Observing a trace *)

Inductive Kind : Type :=
| KAudit | KLog | KQuery | KNormalize | KCacheCheck | KCachePopulate.

Definition kind_of {X : Type} (c : Call X) : Kind :=
  match c with
  | save_api_call_to_db _ _ _ => KAudit
  | logger_info _ | logger_debug _ => KLog
  | get_forecasts_from_database _ _
  | get_latest_forecast_values_for_a_specific_gsp_from_database _ _ _
  | get_truth_values_for_all_gsps_from_database _ _
  | get_truth_values_for_a_specific_gsp_from_database _ _ _ => KQuery
  | normalize _ => KNormalize
  | cache_check _ _ => KCacheCheck
  | cache_populate _ _ _ => KCachePopulate
  end.

Definition ev_kind {Exn : Type} (ev : Event Exn) : Kind :=
  match ev with Ev c _ => kind_of c end.

Definition ev_raised {Exn : Type} (ev : Event Exn) : option Exn :=
  match ev with
  | Ev _ (Raised e) => Some e
  | Ev _ (Returned _) => None
  end.

Definition is_query {Exn : Type} (ev : Event Exn) : bool :=
  match ev_kind ev with KQuery => true | _ => false end.

Definition is_audit {Exn : Type} (ev : Event Exn) : bool :=
  match ev_kind ev with KAudit => true | _ => false end.

(** An audit call that came back: the row is recorded. *)
Definition is_recorded {Exn : Type} (ev : Event Exn) : bool :=
  match ev with
  | Ev c (Returned _) => match kind_of c with KAudit => true | _ => false end
  | Ev _ (Raised _) => false
  end.

(** A cache lookup answered with a stored response. *)
Definition is_cache_hit {Exn : Type} (ev : Event Exn) : bool :=
  match ev with
  | Ev (cache_check _ _) (Returned (Some _)) => true
  | _ => false
  end.

(** What a handler body writes: only the audit call changes stored
    data; queries, [normalize] and the logger do not. *)
Definition is_write (k : Kind) : bool :=
  match k with
  | KAudit | KCachePopulate => true
  | KLog | KQuery | KNormalize | KCacheCheck => false
  end.

Definition count {Exn : Type} (f : Event Exn -> bool) (t : list (Event Exn)) : nat :=
  List.length (filter f t).

(** Every query of the trace comes after a recorded audit call
    ([seen] tells whether one came before the trace). *)
Fixpoint queries_audited {Exn : Type} (seen : bool) (t : list (Event Exn)) : bool :=
  match t with
  | [] => true
  | ev :: t' =>
      if is_query ev then seen && queries_audited seen t'
      else queries_audited (seen || is_recorded ev) t'
  end.

(** The [regime] each truth query of the trace was called with. *)
Definition queried_regime {Exn : Type} (ev : Event Exn) : option (option string) :=
  match ev with
  | Ev (get_truth_values_for_all_gsps_from_database _ regime) _ => Some regime
  | Ev (get_truth_values_for_a_specific_gsp_from_database _ _ regime) _ => Some regime
  | _ => None
  end.

Fixpoint queried_regimes {Exn : Type} (t : list (Event Exn)) : list (option string) :=
  match t with
  | [] => []
  | ev :: t' =>
      match queried_regime ev with
      | Some r => r :: queried_regimes t'
      | None => queried_regimes t'
      end
  end.

(** The enumeration the docstrings name for [regime]. *)
Definition regime_in_enumeration (regime : string) : bool :=
  (String.eqb regime "in-day" || String.eqb regime "day-after")%string.

(** ** Ordering of the returned series *)

Fixpoint ascending (ts : list Z) : bool :=
  match ts with
  | [] => true
  | a :: tl =>
      match tl with
      | [] => true
      | b :: _ => (a <=? b)%Z && ascending tl
      end
  end.

Definition values_ordered (vs : list ForecastValue) : bool :=
  ascending (map target_time vs).

Definition yields_ordered (ys : list GSPYield) : bool :=
  ascending (map datetime_utc ys).

Definition response_ordered (h : Handler) : Response h -> bool :=
  match h return Response h -> bool with
  | h_get_all_available_forecasts =>
      fun r => forallb (fun f => values_ordered (forecast_values f)) (forecasts r)
  | h_get_forecasts_for_a_specific_gsp_old_route
  | h_get_forecasts_for_a_specific_gsp =>
      fun r =>
        match r with
        | IsForecast f => values_ordered (forecast_values f)
        | IsValues vs => values_ordered vs
        end
  | h_get_truths_for_all_gsps =>
      fun r => forallb (fun l => yields_ordered (gsp_yields l)) r
  | h_get_truths_for_a_specific_gsp_old_route
  | h_get_truths_for_a_specific_gsp => yields_ordered
  end.

(** The routes that return a forecast-value or yield series for
    GET /{gsp_id}/forecast, GET /pvlive/all and GET /{gsp_id}/pvlive
    (with the two old routes that stand for them). *)
Definition serves_series (h : Handler) : bool :=
  match h with
  | h_get_all_available_forecasts => false
  | _ => true
  end.

(** What a collaborator hands back is ordered: the series of the three
    per-GSP and truth queries, and a response the cache has stored for
    one of the series routes. *)
Definition answer_ordered {X : Type} (c : Call X) : X -> bool :=
  match c in Call X return X -> bool with
  | get_latest_forecast_values_for_a_specific_gsp_from_database _ _ _ =>
      response_ordered h_get_forecasts_for_a_specific_gsp
  | get_truth_values_for_all_gsps_from_database _ _ =>
      response_ordered h_get_truths_for_all_gsps
  | get_truth_values_for_a_specific_gsp_from_database _ _ _ =>
      response_ordered h_get_truths_for_a_specific_gsp
  | cache_check h _ =>
      fun cached =>
        match cached with
        | Some r => negb (serves_series h) || response_ordered h r
        | None => true
        end
  | _ => fun _ => true
  end.

(** Modelled from the spec: the ordering contract of database.py (and of
    what cache.py replays), neither of which is among the sources.  The
    spec's data-model invariant is that every forecast or yield
    collection handed to the routes is ordered by target time; the
    handlers themselves never sort. *)
Definition collaborators_ordered (Exn World : Type) (env : Env Exn World) : Prop :=
  forall (X : Type) (c : Call X) (w w' : World) (x : X),
    env X c w = (Returned x, w') -> answer_ordered c x = true.

(** ** Requests that differ only in the caller's identity *)

Definition with_user (u : Auth0User) (p : Params) : Params :=
  {| p_request := p_request p;
     p_session := p_session p;
     p_user := u;
     p_gsp_id := p_gsp_id p;
     p_historic := p_historic p;
     p_forecast_horizon_minutes := p_forecast_horizon_minutes p;
     p_regime := p_regime p |}.

Inductive value_sim : PyValue -> PyValue -> Prop :=
| value_sim_user (u1 u2 : Auth0User) : value_sim (PyUser u1) (PyUser u2)
| value_sim_same (v : PyValue) : value_sim v v.

Inductive fragment_sim : Fragment -> Fragment -> Prop :=
| fragment_sim_text (s : string) : fragment_sim (Text s) (Text s)
| fragment_sim_fmt (v1 v2 : PyValue) :
    value_sim v1 v2 -> fragment_sim (Fmt v1) (Fmt v2).

Definition kwarg_sim (a b : string * PyValue) : Prop :=
  fst a = fst b /\ value_sim (snd a) (snd b).

(** Two calls that are the same up to the user they mention. *)
Inductive call_sim : forall X : Type, Call X -> Call X -> Prop :=
| call_sim_audit (s : Session) (u1 u2 : Auth0User) (r : Request) :
    call_sim (save_api_call_to_db s u1 r) (save_api_call_to_db s u2 r)
| call_sim_info (m1 m2 : LogMsg) :
    Forall2 fragment_sim m1 m2 -> call_sim (logger_info m1) (logger_info m2)
| call_sim_debug (m1 m2 : LogMsg) :
    Forall2 fragment_sim m1 m2 -> call_sim (logger_debug m1) (logger_debug m2)
| call_sim_check (h : Handler) (k1 k2 : Kwargs) :
    Forall2 kwarg_sim k1 k2 -> call_sim (cache_check h k1) (cache_check h k2)
| call_sim_populate (h : Handler) (k1 k2 : Kwargs) (r : Response h) :
    Forall2 kwarg_sim k1 k2 ->
    call_sim (cache_populate h k1 r) (cache_populate h k2 r)
| call_sim_same (X : Type) (c : Call X) : call_sim c c.

Inductive prog_sim (A : Type) : Prog A -> Prog A -> Prop :=
| prog_sim_ret (a : A) : prog_sim (Ret a) (Ret a)
| prog_sim_do (X : Type) (c1 c2 : Call X) (k1 k2 : X -> Prog A) :
    call_sim c1 c2 ->
    (forall x : X, prog_sim (k1 x) (k2 x)) ->
    prog_sim (Do c1 k1) (Do c2 k2).

(** The collaborators do not let the user decide what they return: on
    worlds that agree on everything but the audit log and the log output
    ([same_data]), calls that differ only in the user give the same
    answer and leave worlds that still agree. *)
Definition user_blind (Exn World : Type) (env : Env Exn World)
    (same_data : World -> World -> Prop) : Prop :=
  forall (X : Type) (c1 c2 : Call X) (w1 w2 : World),
    call_sim c1 c2 -> same_data w1 w2 ->
    fst (env X c1 w1) = fst (env X c2 w2) /\
    same_data (snd (env X c1 w1)) (snd (env X c2 w2)).

End Api.

Arguments Ret {ext A} a.
Arguments Do {ext A X} c k.
Arguments Raised {Exn X} e.
Arguments Returned {Exn X} x.

(** ** A small deployment to run the handlers on

    Strings for requests and users, a number for the session, an
    append-only audit log and log output, a cache keyed on the handler and
    on the keyword arguments other than session and user, and a database
    whose answers are fixed functions of the query. *)

Module Demo.

Definition ext : Externals :=
  {| Request := string; Session := nat; Auth0User := string;
     Location := Z; Power := Z |}.

#[local] Existing Instance ext.
#[local] Open Scope Z_scope.

Record CacheEntry : Type := {
  ce_handler : Handler;
  ce_key : Kwargs;
  ce_response : Response ce_handler
}.

Record DemoWorld : Type := {
  audit_rows : list (string * string);
  log_lines : list LogMsg;
  cache : list CacheEntry
}.

Definition option_eqb {A : Type} (eqb : A -> A -> bool) (a b : option A) : bool :=
  match a, b with
  | Some x, Some y => eqb x y
  | None, None => true
  | _, _ => false
  end.

Definition value_eqb (a b : PyValue) : bool :=
  match a, b with
  | PyRequest x, PyRequest y => String.eqb x y
  | PySession x, PySession y => Nat.eqb x y
  | PyUser x, PyUser y => String.eqb x y
  | PyInt x, PyInt y => Z.eqb x y
  | PyOptInt x, PyOptInt y => option_eqb Z.eqb x y
  | PyOptBool x, PyOptBool y => option_eqb Bool.eqb x y
  | PyOptStr x, PyOptStr y => option_eqb String.eqb x y
  | _, _ => false
  end.

Fixpoint kwargs_eqb (a b : Kwargs) : bool :=
  match a, b with
  | [], [] => true
  | (n, v) :: a', (m, u) :: b' => String.eqb n m && value_eqb v u && kwargs_eqb a' b'
  | _, _ => false
  end.

(** The key leaves the session and the user out. *)
Definition keyed (kv : string * PyValue) : bool :=
  match snd kv with
  | PySession _ | PyUser _ => false
  | _ => true
  end.

Definition cache_key (kwargs : Kwargs) : Kwargs := filter keyed kwargs.

Definition coerce (h h' : Handler) (r : Response h) : option (Response h') :=
  match Handler_eq_dec h h' with
  | left e => Some (eq_rect h (fun x => Response x) r h' e)
  | right _ => None
  end.

Fixpoint lookup (h : Handler) (key : Kwargs) (entries : list CacheEntry)
    : option (Response h) :=
  match entries with
  | [] => None
  | e :: es =>
      if kwargs_eqb key (ce_key e) then
        match coerce (ce_handler e) h (ce_response e) with
        | Some r => Some r
        | None => lookup h key es
        end
      else lookup h key es
  end.

Definition values_from (start : Z) (power : Z) : list ForecastValue :=
  [ {| target_time := start; expected_power_generation_megawatts := power |};
    {| target_time := start + 30; expected_power_generation_megawatts := power + 2 |} ].

Definition yields (regime : option string) (gsp : Z) : list GSPYield :=
  let tag := match regime with Some r => r | None => "in-day"%string end in
  [ {| datetime_utc := 0; solar_generation_kw := gsp; yield_regime := tag |};
    {| datetime_utc := 30; solar_generation_kw := gsp + 1; yield_regime := tag |} ].

Definition halve (f : Forecast) : Forecast :=
  {| forecast_location := forecast_location f;
     forecast_values :=
       map (fun v => {| target_time := target_time v;
                        expected_power_generation_megawatts :=
                          expected_power_generation_megawatts v / 2 |})
           (forecast_values f) |}.

Definition env : Env string DemoWorld :=
  fun (X : Type) (c : Call X) =>
    match c in Call X return DemoWorld -> Answer string X * DemoWorld with
    | save_api_call_to_db _ user request => fun w =>
        (Returned tt,
         {| audit_rows := audit_rows w ++ [(user, request)];
            log_lines := log_lines w; cache := cache w |})
    | logger_info msg | logger_debug msg => fun w =>
        (Returned tt,
         {| audit_rows := audit_rows w;
            log_lines := log_lines w ++ [msg]; cache := cache w |})
    | get_forecasts_from_database _ historic => fun w =>
        (Returned
           {| forecasts :=
                [ {| forecast_location := 1;
                     forecast_values :=
                       match historic with
                       | Some true => values_from (-1440) 8 ++ values_from 0 10
                       | _ => values_from 0 10
                       end |} ] |}, w)
    | normalize f => fun w =>
        (Returned {| forecasts := map halve (forecasts f) |}, w)
    | get_latest_forecast_values_for_a_specific_gsp_from_database _ gsp_id horizon =>
        fun w =>
          if (gsp_id <? 0)%Z then (Raised "no such gsp"%string, w)
          else
            (Returned
               (IsValues
                  (values_from (match horizon with Some n => n | None => 0 end)
                               gsp_id)), w)
    | get_truth_values_for_all_gsps_from_database _ regime => fun w =>
        (Returned
           [ {| location := 1; gsp_yields := yields regime 1 |};
             {| location := 2; gsp_yields := yields regime 2 |} ], w)
    | get_truth_values_for_a_specific_gsp_from_database _ gsp_id regime => fun w =>
        if (gsp_id <? 0)%Z then (Raised "no such gsp"%string, w)
        else (Returned (yields regime gsp_id), w)
    | cache_check h kwargs => fun w =>
        (Returned (lookup h (cache_key kwargs) (cache w)), w)
    | cache_populate h kwargs r => fun w =>
        (Returned tt,
         {| audit_rows := audit_rows w;
            log_lines := log_lines w;
            cache := {| ce_handler := h; ce_key := cache_key kwargs;
                        ce_response := r |} :: cache w |})
    end.

(** The same deployment with a cache that keeps nothing. *)
Definition env_cold : Env string DemoWorld :=
  fun (X : Type) (c : Call X) =>
    match c in Call X return DemoWorld -> Answer string X * DemoWorld with
    | cache_check _ _ => fun w => (Returned None, w)
    | c' => env c'
    end.

Definition empty : DemoWorld :=
  {| audit_rows := []; log_lines := []; cache := [] |}.

Definition same_data (w1 w2 : DemoWorld) : Prop := cache w1 = cache w2.

Definition params (user : string) (gsp_id : Z) (q : Query) : Params :=
  bind_params "/v0/solar/GB/gsp"%string 7%nat user gsp_id q.

Definition no_query : Query :=
  {| q_historic := None; q_forecast_horizon_minutes := None; q_regime := None |}.

Definition with_regime (r : string) : Query :=
  {| q_historic := None; q_forecast_horizon_minutes := None; q_regime := Some r |}.


(** A world in which other callers have been served, the cache being
    empty. *)
Definition busy : DemoWorld :=
  {| audit_rows := [("carol"%string, "/v0/solar/GB/gsp/pvlive/all"%string)];
     log_lines := [];
     cache := [] |}.

(** The world after a first request for the forecast of GSP 3. *)
Definition warmed : DemoWorld :=
  final (run env (endpoint h_get_forecasts_for_a_specific_gsp
                    (params "alice" 3 no_query)) empty).

End Demo.

(** ** The route table

    The six [@router.get] decorators of gsp.py, in the order in which the
    module registers them.  A path is written relative to the prefix the
    router is mounted under; a template is the path split at its
    slashes, [{gsp_id}] being a placeholder. *)

Inductive Segment : Type :=
| Lit (s : string)
| Param (name : string).

Record Route : Type := {
  route_template : list Segment;
  route_handler : Handler;
  include_in_schema : bool
}.

Definition routes : list Route :=
  [ (* "/forecast/all" *)
    {| route_template := [Lit "forecast"; Lit "all"];
       route_handler := h_get_all_available_forecasts;
       include_in_schema := true |};
    (* "/forecast/{gsp_id}" *)
    {| route_template := [Lit "forecast"; Param "gsp_id"];
       route_handler := h_get_forecasts_for_a_specific_gsp_old_route;
       include_in_schema := false |};
    (* "/{gsp_id}/forecast" *)
    {| route_template := [Param "gsp_id"; Lit "forecast"];
       route_handler := h_get_forecasts_for_a_specific_gsp;
       include_in_schema := true |};
    (* "/pvlive/all" *)
    {| route_template := [Lit "pvlive"; Lit "all"];
       route_handler := h_get_truths_for_all_gsps;
       include_in_schema := true |};
    (* "/pvlive/{gsp_id}" *)
    {| route_template := [Lit "pvlive"; Param "gsp_id"];
       route_handler := h_get_truths_for_a_specific_gsp_old_route;
       include_in_schema := false |};
    (* "/{gsp_id}/pvlive" *)
    {| route_template := [Param "gsp_id"; Lit "pvlive"];
       route_handler := h_get_truths_for_a_specific_gsp;
       include_in_schema := true |} ].

(** The framework compiles a template to the regular expression
    [^/seg/seg$], a placeholder standing for [[^/]+], and serves a request
    by the first registered route whose expression matches the path.  As
    in Python, [$] matches at the end of the path or before a newline
    that ends it. *)

Fixpoint strip_prefix (l s : string) : option string :=
  match l with
  | EmptyString => Some s
  | String a l' =>
      match s with
      | String b s' => if Ascii.eqb a b then strip_prefix l' s' else None
      | EmptyString => None
      end
  end.

(** The longest prefix without a slash, and what follows it. *)
Fixpoint take_segment (s : string) : string * string :=
  match s with
  | EmptyString => (EmptyString, EmptyString)
  | String c s' =>
      if Ascii.eqb c "/"%char then (EmptyString, s)
      else let (v, rest) := take_segment s' in (String c v, rest)
  end.

Definition newline : string := String (Ascii.ascii_of_nat 10) EmptyString.

Definition at_end (s : string) : bool :=
  String.eqb s EmptyString || String.eqb s newline.

Fixpoint match_template (tpl : list Segment) (path : string)
    : option (list (string * string)) :=
  match tpl with
  | [] => if at_end path then Some [] else None
  | seg :: tpl' =>
      match path with
      | EmptyString => None
      | String c rest =>
          if Ascii.eqb c "/"%char then
            match seg with
            | Lit l =>
                match strip_prefix l rest with
                | Some rest' => match_template tpl' rest'
                | None => None
                end
            | Param name =>
                let (v, rest') := take_segment rest in
                match v with
                | EmptyString => None
                | String _ _ =>
                    match match_template tpl' rest' with
                    | Some captured => Some ((name, v) :: captured)
                    | None => None
                    end
                end
            end
          else None
      end
  end.

Fixpoint first_match (rs : list Route) (path : string)
    : option (Route * list (string * string)) :=
  match rs with
  | [] => None
  | r :: rs' =>
      match match_template (route_template r) path with
      | Some captured => Some (r, captured)
      | None => first_match rs' path
      end
  end.

(** The handler a path is served by, with the path parameters as the
    strings captured from the path (their conversion to [int] comes
    after the route is chosen). *)
Definition dispatch (path : string) : option (Handler * list (string * string)) :=
  match first_match routes path with
  | Some (r, captured) => Some (route_handler r, captured)
  | None => None
  end.

Definition is_digit (c : Ascii.ascii) : bool :=
  (48 <=? Ascii.nat_of_ascii c)%nat && (Ascii.nat_of_ascii c <=? 57)%nat.

Fixpoint all_digits (s : string) : bool :=
  match s with
  | EmptyString => true
  | String c s' => is_digit c && all_digits s'
  end.

(** ** Requests that differ only in the request object *)

Definition with_request {ext : Externals} (r : Request) (p : Params) : Params :=
  {| p_request := r;
     p_session := p_session p;
     p_user := p_user p;
     p_gsp_id := p_gsp_id p;
     p_historic := p_historic p;
     p_forecast_horizon_minutes := p_forecast_horizon_minutes p;
     p_regime := p_regime p |}.

(** Two answers that agree: the same value or exception, and worlds
    that hold the same data. *)
Definition agree {World A : Type} (same_data : World -> World -> Prop)
    (a b : A * World) : Prop :=
  fst a = fst b /\ same_data (snd a) (snd b).

(** The collaborators do not let the request object decide what they
    return: the audit call answers alike for any two request objects,
    and every call answers alike on worlds that hold the same data. *)
Definition request_blind {ext : Externals} (Exn World : Type)
    (env : Env Exn World) (same_data : World -> World -> Prop) : Prop :=
  (forall (s : Session) (u : Auth0User) (r1 r2 : Request) (w1 w2 : World),
     same_data w1 w2 ->
     agree same_data (env unit (save_api_call_to_db s u r1) w1)
                     (env unit (save_api_call_to_db s u r2) w2)) /\
  (forall (X : Type) (c : Call X) (w1 w2 : World),
     same_data w1 w2 -> agree same_data (env X c w1) (env X c w2)).

(** ** The deployment with its audit table out of order *)

Module Outage.

#[local] Existing Instance Demo.ext.

Definition env : Env string Demo.DemoWorld :=
  fun (X : Type) (c : Call X) =>
    match c in Call X return Demo.DemoWorld -> Answer string X * Demo.DemoWorld with
    | save_api_call_to_db _ _ _ => fun w =>
        (Raised "api_request is not writable"%string, w)
    | c' => Demo.env c'
    end.

End Outage.

(** ** A deployment whose cache entries expire

    The cache keeps a response for [ttl] minutes from the moment it was
    stored; the database answers from the forecast level it holds at the
    time of the query.  Between requests time passes ([later]) and the
    forecasts are renewed ([renewed]). *)

Module Expiring.

#[local] Existing Instance Demo.ext.
#[local] Open Scope Z_scope.

Record Entry : Type := {
  e_handler : Handler;
  e_key : Kwargs;
  e_stored : Z;
  e_response : Response e_handler
}.

Record World : Type := {
  now : Z;
  level : Z;
  entries : list Entry;
  audited : nat
}.

Definition ttl : Z := 120.

Fixpoint lookup (h : Handler) (key : Kwargs) (t : Z) (es : list Entry)
    : option (Response h) :=
  match es with
  | [] => None
  | e :: es' =>
      if Demo.kwargs_eqb key (e_key e) && (t - e_stored e <? ttl) then
        match Demo.coerce (e_handler e) h (e_response e) with
        | Some r => Some r
        | None => lookup h key t es'
        end
      else lookup h key t es'
  end.

Definition env : Env string World :=
  fun (X : Type) (c : Call X) =>
    match c in Call X return World -> Answer string X * World with
    | save_api_call_to_db _ _ _ => fun w =>
        (Returned tt,
         {| now := now w; level := level w; entries := entries w;
            audited := S (audited w) |})
    | logger_info _ | logger_debug _ => fun w => (Returned tt, w)
    | get_forecasts_from_database _ historic => fun w =>
        (Returned
           {| forecasts :=
                [ {| forecast_location := 1;
                     forecast_values :=
                       match historic with
                       | Some true =>
                           Demo.values_from (-1440) (level w)
                           ++ Demo.values_from 0 (level w)
                       | _ => Demo.values_from 0 (level w)
                       end |} ] |}, w)
    | normalize f => fun w =>
        (Returned {| forecasts := map Demo.halve (forecasts f) |}, w)
    | get_latest_forecast_values_for_a_specific_gsp_from_database _ gsp_id horizon =>
        fun w =>
          (Returned
             (IsValues
                (Demo.values_from (match horizon with Some n => n | None => 0 end)
                                  (gsp_id + level w))), w)
    | get_truth_values_for_all_gsps_from_database _ regime => fun w =>
        (Returned [ {| location := 1; gsp_yields := Demo.yields regime (level w) |} ],
         w)
    | get_truth_values_for_a_specific_gsp_from_database _ gsp_id regime => fun w =>
        (Returned (Demo.yields regime (gsp_id + level w)), w)
    | cache_check h kwargs => fun w =>
        (Returned (lookup h (Demo.cache_key kwargs) (now w) (entries w)), w)
    | cache_populate h kwargs r => fun w =>
        (Returned tt,
         {| now := now w; level := level w;
            entries := {| e_handler := h; e_key := Demo.cache_key kwargs;
                          e_stored := now w; e_response := r |} :: entries w;
            audited := audited w |})
    end.

Definition later (minutes : Z) (w : World) : World :=
  {| now := now w + minutes; level := level w; entries := entries w;
     audited := audited w |}.

Definition renewed (l : Z) (w : World) : World :=
  {| now := now w; level := l; entries := entries w; audited := audited w |}.

Definition start : World :=
  {| now := 0; level := 3; entries := []; audited := 0 |}.

Definition params : Params := Demo.params "alice" 3 Demo.no_query.

(** Half an hour after a first request to [h], the forecasts having been
    renewed in between. *)
Definition served_once (h : Handler) : World :=
  renewed 9 (later 30 (final (run env (endpoint h params) start))).

(** A request to /3/forecast at minute 0, one to /forecast/3 at minute
    60, and the forecasts renewed by minute 150: the entry of the
    canonical route has expired, that of the old route has not. *)
Definition diverged : World :=
  renewed 9
    (later 90
       (final (run env
                 (endpoint h_get_forecasts_for_a_specific_gsp_old_route params)
                 (later 60
                    (final (run env
                              (endpoint h_get_forecasts_for_a_specific_gsp params)
                              start)))))).

End Expiring.

(** * Properties of the handlers *)

Section Facts.

Context {ext : Externals}.
Variables Exn World : Type.
Variable env : Env Exn World.

(** ** Running programs *)

Lemma after_result (A : Type) (ev : Event Exn) (o : Outcome Exn World A) :
  result (after ev o) = result o.
Proof. destruct o; reflexivity. Qed.

Lemma after_final (A : Type) (ev : Event Exn) (o : Outcome Exn World A) :
  final (after ev o) = final o.
Proof. destruct o; reflexivity. Qed.

Lemma after_trace (A : Type) (ev : Event Exn) (o : Outcome Exn World A) :
  trace (after ev o) = ev :: trace o.
Proof. destruct o; reflexivity. Qed.

Lemma run_bind (A B : Type) (p : Prog A) (f : A -> Prog B) (w : World) :
  run env (bind p f) w =
  match result (run env p w) with
  | Returned a =>
      let o := run env (f a) (final (run env p w)) in
      {| result := result o; final := final o;
         trace := trace (run env p w) ++ trace o |}
  | Raised e =>
      {| result := Raised e; final := final (run env p w);
         trace := trace (run env p w) |}
  end.
Proof.
  revert w; induction p as [a | X c k IH]; intro w; cbn.
  - destruct (run env (f a) w); reflexivity.
  - destruct (@env X c w) as [[x | e] w']; cbn; [ | reflexivity ].
    rewrite IH. destruct (run env (k x) w') as [[a | e] wf t]; cbn.
    + destruct (run env (f a) wf); reflexivity.
    + reflexivity.
Qed.

(** No program built from [Ret], [Do] and [bind] can swallow an
    exception: an event that raised is the last one and its exception is
    the result. *)
Lemma raise_propagates (A : Type) (p : Prog A) (w : World)
    (ev : Event Exn) (e : Exn) :
  In ev (trace (run env p w)) -> ev_raised ev = Some e ->
  result (run env p w) = Raised e.
Proof.
  revert w; induction p as [a | X c k IH]; intros w Hin Hev; cbn in *.
  - contradiction.
  - destruct (@env X c w) as [[x | e'] w'].
    + rewrite after_trace in Hin. rewrite after_result.
      destruct Hin as [<- | Hin]; [ discriminate | eauto ].
    + destruct Hin as [<- | []]. cbn in Hev. cbn. congruence.
Qed.

Lemma queries_audited_sound (t : list (Event Exn)) (seen : bool) :
  queries_audited seen t = true ->
  forall (t1 t2 : list (Event Exn)) (q : Event Exn),
    t = t1 ++ q :: t2 -> is_query q = true ->
    seen = true \/ exists a, In a t1 /\ is_recorded a = true.
Proof.
  revert seen; induction t as [| ev t IH]; intros seen H t1 t2 q Ht Hq.
  - destruct t1; discriminate.
  - destruct t1 as [| a t1]; cbn in Ht; injection Ht as -> ->; cbn in H.
    + rewrite Hq in H. apply andb_prop in H. left; tauto.
    + destruct (is_query a) eqn:Ha.
      * apply andb_prop in H. left; tauto.
      * destruct (IH _ H t1 t2 q eq_refl Hq) as [Hs | [b [Hb1 Hb2]]].
        -- apply orb_prop in Hs. destruct Hs as [Hs | Hs]; [ tauto | ].
           right. exists a. split; [ left; reflexivity | assumption ].
        -- right. exists b. split; [ right; assumption | assumption ].
Qed.

(** Case analysis on the answers of the collaborators, one call after
    the other in program order. *)
Ltac ask :=
  match goal with
  | |- context [@env ?X ?c ?w] =>
      let E := fresh "E" in
      destruct (@env X c w) as [[? | ?] ?] eqn:E; cbn in *
  | |- context [match ?x with Some _ => _ | None => _ end] =>
      is_var x; destruct x; cbn in *
  end.

Ltac run_all := cbn in *; repeat ask.

(** ** Ordering *)

(** C2: every successful call of a series route returns a collection in
    ascending order of target time, given that the database layer hands
    its collections over in that order (and the cache replays only such
    responses): the handlers return what they are given and never
    reorder it.  Stated for the function as written and for the function
    under its cache decorator. *)
Theorem series_routes_return_ordered
    (Hordered : collaborators_ordered env)
    (h : Handler) (p : Params) (w : World) (r : Response h) :
  serves_series h = true ->
  (result (run env (handler_body h p) w) = Returned r ->
   response_ordered h r = true) /\
  (result (run env (endpoint h p) w) = Returned r ->
   response_ordered h r = true).
Proof.
  destruct h; cbn; try discriminate; intros _; split;
    run_all; intro H; try discriminate; injection H as <-;
    repeat match goal with
           | E : @env _ _ _ = (Returned _, _) |- _ =>
               apply Hordered in E; cbn in E
           end;
    assumption.
Qed.

(** ** The regime parameter *)

(** C3, as the code has it: [regime] is an optional free-form string that
    this layer passes on unchecked.  Whatever value the request carries
    (or none), every truth query made for the request is called with
    exactly that value, and a run of the handler for GET /pvlive/all or
    GET /{gsp_id}/pvlive that returns has made the query with it. *)
Theorem regime_reaches_query_unchecked
    (request : Request) (session : Session) (user : Auth0User) (gsp_id : Z)
    (q : Query) (w : World) :
  let p := bind_params request session user gsp_id q in
  (forall h : Handler,
     Forall (eq (q_regime q))
            (queried_regimes (trace (run env (endpoint h p) w)))) /\
  (forall r,
     result (run env (handler_body h_get_truths_for_all_gsps p) w) = Returned r ->
     queried_regimes (trace (run env (handler_body h_get_truths_for_all_gsps p) w))
     = [q_regime q]) /\
  (forall r,
     result (run env (handler_body h_get_truths_for_a_specific_gsp p) w) = Returned r ->
     queried_regimes
       (trace (run env (handler_body h_get_truths_for_a_specific_gsp p) w))
     = [q_regime q]).
Proof.
  cbn. repeat split.
  - intro h; destruct h; run_all; repeat constructor.
  - intro r; run_all; intro H; try discriminate; reflexivity.
  - intro r; run_all; intro H; try discriminate; reflexivity.
Qed.

(** ** The audit call *)

(** C4, as the code has it: the audit call sits inside the cached
    function.  A successful call makes exactly one audit call when no
    cache lookup on its way is answered with a stored response, and none
    when one is; a handler function of a canonical route that runs and
    returns has made exactly one audit call, and that call is its only
    write. *)
Theorem audit_once_unless_served_from_cache
    (h : Handler) (p : Params) (w : World) (r : Response h) :
  let o := run env (endpoint h p) w in
  let b := run env (handler_body h p) w in
  (result o = Returned r ->
   count is_audit (trace o) =
   if existsb is_cache_hit (trace o) then 0%nat else 1%nat) /\
  (deprecated h = false -> result b = Returned r ->
   count is_audit (trace b) = 1%nat /\
   count (fun ev => is_write (ev_kind ev)) (trace b) = 1%nat).
Proof.
  destruct h; cbn; (split; [ | intro Hd; try discriminate Hd ]);
    run_all; intro H; try discriminate; auto.
Qed.

(** C6: in every run of any of the six handlers, under the cache
    decorator or as written, each database query of the trace comes
    after an audit call that has returned. *)
Theorem audit_recorded_before_query
    (h : Handler) (p : Params) (w : World)
    (t1 t2 : list (Event Exn)) (q : Event Exn) :
  trace (run env (endpoint h p) w) = t1 ++ q :: t2 \/
  trace (run env (handler_body h p) w) = t1 ++ q :: t2 ->
  is_query q = true ->
  exists a : Event Exn, In a t1 /\ is_recorded a = true.
Proof.
  intros Ht Hq.
  assert (Hall : queries_audited false (trace (run env (endpoint h p) w)) = true /\
                 queries_audited false (trace (run env (handler_body h p) w)) = true).
  { clear. destruct h; split; run_all; reflexivity. }
  destruct Hall as [Ho Hb].
  destruct Ht as [Ht | Ht];
    [ destruct (@queries_audited_sound _ _ Ho _ _ _ Ht Hq) as [? | ?]
    | destruct (@queries_audited_sound _ _ Hb _ _ _ Ht Hq) as [? | ?] ];
    (discriminate || assumption).
Qed.

(** ** Failures *)

(** C8: in every run of any of the six handlers, under the cache
    decorator or as written, the database is queried at most once, and
    an exception raised by the query is the outcome of the handler:
    nothing catches it and nothing is tried again. *)
Theorem query_once_and_failure_propagates
    (h : Handler) (p : Params) (w : World) :
  let o := run env (endpoint h p) w in
  let b := run env (handler_body h p) w in
  (count is_query (trace o) <= 1)%nat /\
  (count is_query (trace b) <= 1)%nat /\
  (forall (ev : Event Exn) (e : Exn),
     In ev (trace o) -> is_query ev = true -> ev_raised ev = Some e ->
     result o = Raised e) /\
  (forall (ev : Event Exn) (e : Exn),
     In ev (trace b) -> is_query ev = true -> ev_raised ev = Some e ->
     result b = Raised e).
Proof.
  cbv zeta. split; [ | split; [ | split ] ].
  - destruct h; run_all; auto.
  - destruct h; run_all; auto.
  - intros ev e Hin _ Hev. eapply raise_propagates; eassumption.
  - intros ev e Hin _ Hev. eapply raise_propagates; eassumption.
Qed.

(** ** The caller's identity *)

Section UserBlind.

Variable same_data : World -> World -> Prop.
Hypothesis Hblind : user_blind env same_data.

(** Programs that make the same calls up to the user, run on worlds that
    agree on the data, end with the same result on worlds that agree on
    the data. *)
Lemma run_sim (A : Type) (p1 p2 : Prog A) :
  prog_sim p1 p2 ->
  forall w1 w2 : World, same_data w1 w2 ->
    result (run env p1 w1) = result (run env p2 w2) /\
    same_data (final (run env p1 w1)) (final (run env p2 w2)).
Proof.
  induction 1 as [a | X c1 c2 k1 k2 Hc Hk IH]; intros w1 w2 Hw; cbn.
  - split; [ reflexivity | assumption ].
  - destruct (Hblind Hc Hw) as [Hres Hdata].
    destruct (@env X c1 w1) as [a1 w1'], (@env X c2 w2) as [a2 w2'].
    cbn in Hres, Hdata. subst a2.
    destruct a1 as [x | e]; cbn.
    + rewrite !after_result, !after_final. apply IH; assumption.
    + split; [ reflexivity | assumption ].
Qed.

Lemma prog_sim_bind (A B : Type) (p1 p2 : Prog A) (f1 f2 : A -> Prog B) :
  prog_sim p1 p2 -> (forall a : A, prog_sim (f1 a) (f2 a)) ->
  prog_sim (bind p1 f1) (bind p2 f2).
Proof.
  induction 1 as [a | X c1 c2 k1 k2 Hc Hk IH]; intro Hf; cbn.
  - apply Hf.
  - constructor; [ assumption | intro x; apply IH; assumption ].
Qed.

Lemma cache_response_sim (h : Handler) (k1 k2 : Kwargs)
    (f1 f2 : Prog (Response h)) :
  Forall2 kwarg_sim k1 k2 -> prog_sim f1 f2 ->
  prog_sim (cache_response h k1 f1) (cache_response h k2 f2).
Proof.
  intros Hk Hf. unfold cache_response.
  apply prog_sim_bind.
  - constructor; [ constructor; assumption | intro; constructor ].
  - intros [r |]; [ constructor | ].
    apply prog_sim_bind; [ assumption | ].
    intro r. apply prog_sim_bind; [ | intro; constructor ].
    constructor; [ constructor; assumption | intro; constructor ].
Qed.

Ltac sim_values :=
  repeat first
    [ apply Forall2_nil
    | apply Forall2_cons
    | apply fragment_sim_text
    | apply fragment_sim_fmt
    | apply value_sim_user
    | apply value_sim_same
    | split; cbn ; [ reflexivity | ] ].

Ltac sim_call :=
  first
    [ apply call_sim_audit
    | apply call_sim_info; sim_values
    | apply call_sim_debug; sim_values
    | apply call_sim_same ].

Ltac sim_body :=
  cbn;
  repeat first
    [ apply prog_sim_ret
    | apply prog_sim_do; [ sim_call | intro ] ].

Lemma handler_body_sim (h : Handler) (p : Params) (u1 u2 : Auth0User) :
  prog_sim (handler_body h (with_user u1 p)) (handler_body h (with_user u2 p)) /\
  prog_sim (endpoint h (with_user u1 p)) (endpoint h (with_user u2 p)).
Proof.
  assert (Hf : prog_sim
                 (handler_body h_get_forecasts_for_a_specific_gsp (with_user u1 p))
                 (handler_body h_get_forecasts_for_a_specific_gsp (with_user u2 p)))
    by sim_body.
  assert (Ht : prog_sim
                 (handler_body h_get_truths_for_a_specific_gsp (with_user u1 p))
                 (handler_body h_get_truths_for_a_specific_gsp (with_user u2 p)))
    by sim_body.
  assert (Hcf : prog_sim
                  (endpoint h_get_forecasts_for_a_specific_gsp (with_user u1 p))
                  (endpoint h_get_forecasts_for_a_specific_gsp (with_user u2 p)))
    by (apply cache_response_sim; [ sim_values | exact Hf ]).
  assert (Hct : prog_sim
                  (endpoint h_get_truths_for_a_specific_gsp (with_user u1 p))
                  (endpoint h_get_truths_for_a_specific_gsp (with_user u2 p)))
    by (apply cache_response_sim; [ sim_values | exact Ht ]).
  destruct h; split;
    try assumption;
    try (apply cache_response_sim; [ sim_values | ]);
    try assumption;
    sim_body.
Qed.

(** C10: two requests to the same endpoint that differ only in the
    authenticated user get the same response, given collaborators that
    do not let the user decide what they return ([user_blind]: the user
    reaches them only in the audit call, the log lines and the keyword
    arguments shown to the cache).  Stated for the function under its
    cache decorator and for the function as written. *)
Theorem response_does_not_depend_on_user
    (h : Handler) (p : Params) (u1 u2 : Auth0User) (w1 w2 : World) :
  same_data w1 w2 ->
  result (run env (endpoint h (with_user u1 p)) w1)
  = result (run env (endpoint h (with_user u2 p)) w2) /\
  result (run env (handler_body h (with_user u1 p)) w1)
  = result (run env (handler_body h (with_user u2 p)) w2).
Proof.
  intro Hw. destruct (handler_body_sim h p u1 u2) as [Hb He].
  split; [ apply (run_sim He Hw) | apply (run_sim Hb Hw) ].
Qed.

End UserBlind.

End Facts.

(** * The handlers on the small deployment *)

Section OnDemo.

#[local] Existing Instance Demo.ext.
#[local] Open Scope Z_scope.
#[local] Open Scope string_scope.

Lemma demo_cache_key_sim (k1 k2 : Kwargs) :
  Forall2 kwarg_sim k1 k2 -> Demo.cache_key k1 = Demo.cache_key k2.
Proof.
  unfold Demo.cache_key.
  induction 1 as [| [n1 v1] [n2 v2] k1 k2 [Hn Hv] _ IH]; [ reflexivity | ].
  cbn [fst snd] in Hn, Hv. subst n2. cbn [filter].
  destruct Hv as [u1 u2 | v].
  - exact IH.
  - rewrite IH. reflexivity.
Qed.

Lemma demo_user_blind : user_blind Demo.env Demo.same_data.
Proof.
  unfold user_blind, Demo.same_data.
  intros X c1 c2 w1 w2 Hc Hw.
  destruct Hc as [s u1 u2 r | m1 m2 _ | m1 m2 _ | h k1 k2 Hk | h k1 k2 r Hk | X c];
    cbn; try (split; [ reflexivity | assumption ]).
  - rewrite (demo_cache_key_sim Hk), Hw. split; reflexivity.
  - rewrite (demo_cache_key_sim Hk), Hw. split; reflexivity.
  - destruct c; cbn; try (split; [ reflexivity | assumption ]).
    + destruct (gsp_id <? 0)%Z; cbn; split; (reflexivity || assumption).
    + destruct (gsp_id <? 0)%Z; cbn; split; (reflexivity || assumption).
    + rewrite Hw. split; reflexivity.
    + rewrite Hw. split; reflexivity.
Qed.

Lemma demo_cold_ordered : collaborators_ordered Demo.env_cold.
Proof.
  intros X c w w' x H. destruct c; cbn in *; try reflexivity.
  - destruct (gsp_id <? 0)%Z; [ discriminate | ].
    injection H as <- _. cbn. rewrite andb_true_r. apply Z.leb_le. lia.
  - injection H as <- _. reflexivity.
  - destruct (gsp_id <? 0)%Z; [ discriminate | ].
    injection H as <- _. reflexivity.
  - injection H as <- _. reflexivity.
Qed.

(** [series_routes_return_ordered] on the deployment whose cache keeps
    nothing: the truths of GSP 3 come back in ascending order. *)
Lemma series_routes_return_ordered_witness :
  collaborators_ordered Demo.env_cold /\
  response_ordered h_get_truths_for_a_specific_gsp (Demo.yields None 3) = true.
Proof.
  split; [ exact demo_cold_ordered | ].
  apply (proj2 (@series_routes_return_ordered _ _ _ Demo.env_cold
                  demo_cold_ordered h_get_truths_for_a_specific_gsp
                  (Demo.params "alice" 3 Demo.no_query) Demo.empty
                  (Demo.yields None 3) eq_refl)).
  vm_compute. reflexivity.
Defined.

(** A request for GET /pvlive/all with a regime outside the enumeration
    is served, and the database is queried with that very value. *)
Lemma regime_outside_enumeration_reaches_query :
  let o := run Demo.env
             (endpoint h_get_truths_for_all_gsps
                (Demo.params "alice" 0 (Demo.with_regime "next-week")))
             Demo.empty in
  regime_in_enumeration "next-week" = false /\
  (exists r, result o = Returned r) /\
  In (Some "next-week") (queried_regimes (trace o)).
Proof.
  cbv zeta. split; [ reflexivity | split ].
  - eexists. vm_compute. reflexivity.
  - vm_compute. left. reflexivity.
Qed.

Lemma regime_reaches_query_unchecked_witness :
  queried_regimes
    (trace (run Demo.env
              (handler_body h_get_truths_for_all_gsps
                 (Demo.params "alice" 0 (Demo.with_regime "next-week")))
              Demo.empty))
  = [Some "next-week"].
Proof.
  eapply (proj1 (proj2 (@regime_reaches_query_unchecked _ _ _ Demo.env
                          "/v0/solar/GB/gsp" 7%nat "alice" 0
                          (Demo.with_regime "next-week") Demo.empty))).
  vm_compute. reflexivity.
Defined.

(** A second request for the forecast of GSP 3 is answered from the
    cache: it succeeds, makes no audit call and leaves the audit log as
    it found it. *)
Lemma cache_hit_writes_no_audit_row :
  let o := run Demo.env
             (endpoint h_get_forecasts_for_a_specific_gsp
                (Demo.params "bob" 3 Demo.no_query))
             Demo.warmed in
  (exists r, result o = Returned r) /\
  existsb is_cache_hit (trace o) = true /\
  count is_audit (trace o) = 0%nat /\
  Demo.audit_rows (final o) = Demo.audit_rows Demo.warmed.
Proof.
  cbv zeta. split; [ eexists | ]; vm_compute; auto.
Qed.

Lemma audit_once_unless_served_from_cache_witness :
  count is_audit
    (trace (run Demo.env
              (endpoint h_get_forecasts_for_a_specific_gsp
                 (Demo.params "alice" 3 Demo.no_query))
              Demo.empty))
  = 1%nat.
Proof.
  apply (proj1 (@audit_once_unless_served_from_cache _ _ _ Demo.env
                  h_get_forecasts_for_a_specific_gsp
                  (Demo.params "alice" 3 Demo.no_query) Demo.empty
                  (IsValues (Demo.values_from 0 3)))).
  vm_compute. reflexivity.
Defined.

Lemma audit_recorded_before_query_witness :
  exists a : Event string,
    In a (firstn 4
            (trace (run Demo.env
                      (endpoint h_get_forecasts_for_a_specific_gsp
                         (Demo.params "alice" 3 Demo.no_query))
                      Demo.empty))) /\
    is_recorded a = true.
Proof.
  set (t := trace (run Demo.env
                     (endpoint h_get_forecasts_for_a_specific_gsp
                        (Demo.params "alice" 3 Demo.no_query))
                     Demo.empty)).
  apply (@audit_recorded_before_query _ _ _ Demo.env
           h_get_forecasts_for_a_specific_gsp
           (Demo.params "alice" 3 Demo.no_query) Demo.empty
           (firstn 4 t)
           (skipn 5 t)
           (nth 4 t (Ev (logger_debug []) (Returned tt)))).
  - left. vm_compute. reflexivity.
  - vm_compute. reflexivity.
Defined.

Lemma query_once_and_failure_propagates_witness :
  result (run Demo.env
            (endpoint h_get_truths_for_a_specific_gsp
               (Demo.params "alice" (-1) Demo.no_query))
            Demo.empty)
  = Raised "no such gsp".
Proof.
  apply (proj1 (proj2 (proj2 (@query_once_and_failure_propagates _ _ _ Demo.env
                                h_get_truths_for_a_specific_gsp
                                (Demo.params "alice" (-1) Demo.no_query)
                                Demo.empty)))
           (Ev (get_truth_values_for_a_specific_gsp_from_database
                  (ext := Demo.ext) 7%nat (-1) None)
               (Raised "no such gsp"))).
  - vm_compute. tauto.
  - reflexivity.
  - reflexivity.
Defined.

Lemma response_does_not_depend_on_user_witness :
  Demo.same_data Demo.empty Demo.busy /\
  result (run Demo.env
            (endpoint h_get_truths_for_all_gsps
               (with_user "alice" (Demo.params "" 0 Demo.no_query)))
            Demo.empty)
  = result (run Demo.env
              (endpoint h_get_truths_for_all_gsps
                 (with_user "bob" (Demo.params "" 0 Demo.no_query)))
              Demo.busy).
Proof.
  split; [ reflexivity | ].
  apply (proj1 (@response_does_not_depend_on_user _ _ _ Demo.env
                  Demo.same_data demo_user_blind h_get_truths_for_all_gsps
                  (Demo.params "" 0 Demo.no_query) "alice" "bob"
                  Demo.empty Demo.busy eq_refl)).
Defined.

End OnDemo.

(** * Further properties *)

Section Failures.

Context {ext : Externals}.
Variables Exn World : Type.
Variable env : Env Exn World.

(** One collaborator answer after the other, in program order. *)
Ltac answer :=
  match goal with
  | |- context [@env ?X ?c ?w] =>
      let E := fresh "E" in
      destruct (@env X c w) as [[? | ?] ?] eqn:E; cbn in *
  | |- context [match ?x with Some _ => _ | None => _ end] =>
      is_var x; destruct x; cbn in *
  end.

(** X1: the audit call is the first thing each canonical handler does,
    and when it raises nothing else happens: the handler ends with that
    exception, in the world the audit call left, without a log line and
    without a database query. *)
Theorem audit_failure_stops_handler
    (h : Handler) (p : Params) (w w' : World) (e : Exn) :
  deprecated h = false ->
  env (save_api_call_to_db (p_session p) (p_user p) (p_request p)) w
  = (Raised e, w') ->
  run env (handler_body h p) w
  = {| result := Raised e;
       final := w';
       trace := [Ev (save_api_call_to_db (p_session p) (p_user p) (p_request p))
                    (Raised e)] |}.
Proof.
  destruct h; try discriminate; intros _ H; cbn; rewrite H; reflexivity.
Qed.

(** X2: what an old route returns is either the response its own cache
    entry replayed, or, when its own lookup found nothing, the response
    of the canonical route run in the world that lookup left (the cache
    layer as modelled in [cache_response]). *)
Theorem old_route_returns_canonical_response (p : Params) (w : World) :
  (forall r : ForecastOrValues,
     result (run env (endpoint h_get_forecasts_for_a_specific_gsp_old_route p) w)
     = Returned r ->
     (exists kw : Kwargs,
        trace (run env (endpoint h_get_forecasts_for_a_specific_gsp_old_route p) w)
        = [Ev (cache_check h_get_forecasts_for_a_specific_gsp_old_route kw)
              (Returned (Some r))]) \/
     (exists (kw : Kwargs) (w1 : World),
        env (cache_check h_get_forecasts_for_a_specific_gsp_old_route kw) w
        = (Returned None, w1) /\
        result (run env (endpoint h_get_forecasts_for_a_specific_gsp p) w1)
        = Returned r)) /\
  (forall r : list GSPYield,
     result (run env (endpoint h_get_truths_for_a_specific_gsp_old_route p) w)
     = Returned r ->
     (exists kw : Kwargs,
        trace (run env (endpoint h_get_truths_for_a_specific_gsp_old_route p) w)
        = [Ev (cache_check h_get_truths_for_a_specific_gsp_old_route kw)
              (Returned (Some r))]) \/
     (exists (kw : Kwargs) (w1 : World),
        env (cache_check h_get_truths_for_a_specific_gsp_old_route kw) w
        = (Returned None, w1) /\
        result (run env (endpoint h_get_truths_for_a_specific_gsp p) w1)
        = Returned r)).
Proof.
  split; intro r; cbn.
  - match goal with
    | |- context [@env ?X (cache_check ?h ?kw) w] =>
        destruct (@env X (cache_check h kw) w) as [[[r0 |] | e] w1] eqn:E0; cbn
    end.
    + intro H; injection H as ->. left. eexists. reflexivity.
    + intro H. right. exists
        [("request"%string, PyRequest (p_request p));
         ("gsp_id"%string, PyInt (p_gsp_id p));
         ("session"%string, PySession (p_session p));
         ("forecast_horizon_minutes"%string,
          PyOptInt (p_forecast_horizon_minutes p));
         ("user"%string, PyUser (p_user p))], w1.
      split; [ exact E0 | ].
      revert H. clear E0. cbn in *; repeat answer; intro H; try discriminate; assumption.
    + discriminate.
  - match goal with
    | |- context [@env ?X (cache_check ?h ?kw) w] =>
        destruct (@env X (cache_check h kw) w) as [[[r0 |] | e] w1] eqn:E0; cbn
    end.
    + intro H; injection H as ->. left. eexists. reflexivity.
    + intro H. right. exists
        [("request"%string, PyRequest (p_request p));
         ("gsp_id"%string, PyInt (p_gsp_id p));
         ("regime"%string, PyOptStr (p_regime p));
         ("session"%string, PySession (p_session p));
         ("user"%string, PyUser (p_user p))], w1.
      split; [ exact E0 | ].
      revert H. clear E0. cbn in *; repeat answer; intro H; try discriminate; assumption.
    + discriminate.
Qed.

End Failures.

Section RequestBlind.

Context {ext : Externals}.
Variables Exn World : Type.
Variable env : Env Exn World.
Variable same_data : World -> World -> Prop.
Hypothesis Hblind : request_blind env same_data.

Lemma agree_step (A X : Type) (c1 c2 : Call X) (k1 k2 : X -> Prog A)
    (w1 w2 : World) :
  agree same_data (env c1 w1) (env c2 w2) ->
  (forall (x : X) (v1 v2 : World), same_data v1 v2 ->
     result (run env (k1 x) v1) = result (run env (k2 x) v2)) ->
  result (run env (Do c1 k1) w1) = result (run env (Do c2 k2) w2).
Proof.
  intros [Hres Hdata] Hk. cbn.
  destruct (env c1 w1) as [a1 v1], (env c2 w2) as [a2 v2].
  cbn in Hres, Hdata. subst a2.
  destruct a1 as [x | e]; [ | reflexivity ].
  rewrite !after_result. apply Hk. assumption.
Qed.

Ltac same_call :=
  first [ apply (proj1 Hblind) | apply (proj2 Hblind) ]; assumption.

(** X3: the request object reaches nothing but the audit call.  Two
    calls of a canonical handler that differ only in the request object
    return the same response (or raise the same exception), given
    collaborators whose answers the request object does not decide. *)
Theorem response_does_not_depend_on_request
    (h : Handler) (p : Params) (r1 r2 : Request) (w1 w2 : World) :
  deprecated h = false -> same_data w1 w2 ->
  result (run env (handler_body h (with_request r1 p)) w1)
  = result (run env (handler_body h (with_request r2 p)) w2).
Proof.
  destruct h; try discriminate; intros _ Hw;
    unfold handler_body, get_all_available_forecasts__wrapped,
      get_forecasts_for_a_specific_gsp__wrapped,
      get_truths_for_all_gsps__wrapped,
      get_truths_for_a_specific_gsp__wrapped, call;
    cbn [bind with_request p_request p_session p_user p_gsp_id p_historic
         p_forecast_horizon_minutes p_regime];
    repeat (apply agree_step; [ same_call | clear dependent w1; clear w2;
                                 intros ? w1 w2 Hw ]);
    reflexivity.
Qed.

End RequestBlind.

Section Routing.

#[local] Open Scope string_scope.

Lemma strip_prefix_some (l s rest : string) :
  strip_prefix l s = Some rest -> s = l ++ rest.
Proof.
  revert s; induction l as [| a l IH]; intros s H; cbn in *.
  - congruence.
  - destruct s as [| b s]; [ discriminate | ].
    destruct (Ascii.eqb a b) eqn:Hab; [ | discriminate ].
    apply Ascii.eqb_eq in Hab. subst b. rewrite (IH _ H). reflexivity.
Qed.

Lemma append_empty (s : string) : s ++ "" = s.
Proof. induction s as [| c s IH]; cbn; [ reflexivity | now rewrite IH ]. Qed.

Lemma at_end_inv (s : string) :
  at_end s = true -> s = "" \/ s = newline.
Proof.
  unfold at_end. intro H. apply orb_prop in H.
  destruct H as [H | H]; apply String.eqb_eq in H; auto.
Qed.

(** The paths a template of two literals accepts. *)
Lemma match_two_literals (a b path : string) (captured : list (string * string)) :
  match_template [Lit a; Lit b] path = Some captured ->
  path = "/" ++ a ++ "/" ++ b \/ path = "/" ++ a ++ "/" ++ b ++ newline.
Proof.
  cbn. destruct path as [| c rest]; [ discriminate | ].
  destruct (Ascii.eqb c "/") eqn:Hc; [ | discriminate ].
  apply Ascii.eqb_eq in Hc. subst c.
  destruct (strip_prefix a rest) as [rest1 |] eqn:Ha; [ | discriminate ].
  apply strip_prefix_some in Ha. subst rest.
  destruct rest1 as [| c rest2]; [ discriminate | ].
  destruct (Ascii.eqb c "/") eqn:Hc; [ | discriminate ].
  apply Ascii.eqb_eq in Hc. subst c.
  destruct (strip_prefix b rest2) as [rest3 |] eqn:Hb; [ | discriminate ].
  apply strip_prefix_some in Hb. subst rest2.
  destruct (at_end rest3) eqn:He; [ | discriminate ].
  intros _. destruct (at_end_inv _ He) as [-> | ->].
  - left. rewrite append_empty. reflexivity.
  - right. reflexivity.
Qed.

Lemma digit_facts (c : ascii) :
  is_digit c = true ->
  Ascii.eqb c "/" = false /\ Ascii.eqb "a" c = false /\
  Ascii.eqb "f" c = false /\ Ascii.eqb "p" c = false.
Proof.
  destruct c as [[] [] [] [] [] [] [] []]; vm_compute;
    intro H; try discriminate H; repeat split.
Qed.

Lemma take_segment_digits (g rest : string) :
  all_digits g = true ->
  rest = "" \/ (exists tl, rest = String "/" tl) ->
  take_segment (g ++ rest) = (g, rest).
Proof.
  intros Hg Hrest. induction g as [| c g IH]; cbn in *.
  - destruct Hrest as [-> | [tl ->]]; reflexivity.
  - apply andb_prop in Hg. destruct Hg as [Hc Hg].
    destruct (digit_facts _ Hc) as [-> _]. rewrite (IH Hg). reflexivity.
Qed.

(** X4: the two "all" routes are registered before the old per-GSP
    templates that would also accept their paths, and are reached by
    nothing else: a path is served by the all-GSP forecast handler
    exactly when it is /forecast/all, and by the all-GSP truth handler
    exactly when it is /pvlive/all (each also with the final newline
    that [$] lets through). *)
Theorem all_routes_take_exactly_their_paths (path : string) :
  (option_map fst (dispatch path) = Some h_get_all_available_forecasts <->
   path = "/forecast/all" \/ path = "/forecast/all" ++ newline) /\
  (option_map fst (dispatch path) = Some h_get_truths_for_all_gsps <->
   path = "/pvlive/all" \/ path = "/pvlive/all" ++ newline).
Proof.
  split; split.
  - unfold dispatch, routes. cbn [first_match route_template route_handler].
    destruct (match_template [Lit "forecast"; Lit "all"] path) eqn:E1.
    { intros _. exact (match_two_literals _ _ _ E1). }
    repeat match goal with
           | |- context [match match_template ?t path with _ => _ end] =>
               destruct (match_template t path)
           end;
      cbn [option_map fst]; discriminate.
  - intros [-> | ->]; vm_compute; reflexivity.
  - unfold dispatch, routes. cbn [first_match route_template route_handler].
    destruct (match_template [Lit "forecast"; Lit "all"] path);
      [ cbn [option_map fst]; discriminate | ].
    destruct (match_template [Lit "forecast"; Param "gsp_id"] path);
      [ cbn [option_map fst]; discriminate | ].
    destruct (match_template [Param "gsp_id"; Lit "forecast"] path);
      [ cbn [option_map fst]; discriminate | ].
    destruct (match_template [Lit "pvlive"; Lit "all"] path) eqn:E4.
    { intros _. exact (match_two_literals _ _ _ E4). }
    repeat match goal with
           | |- context [match match_template ?t path with _ => _ end] =>
               destruct (match_template t path)
           end;
      cbn [option_map fst]; discriminate.
  - intros [-> | ->]; vm_compute; reflexivity.
Qed.

(** X5: no numeric GSP id is shadowed.  For every non-empty string of
    decimal digits, the old and the new form of the forecast path and of
    the truth path reach the old route and the canonical route, each with
    that string captured as [gsp_id]. *)
Theorem numeric_ids_reach_their_routes (g : string) :
  g <> "" -> all_digits g = true ->
  dispatch ("/forecast/" ++ g)
  = Some (h_get_forecasts_for_a_specific_gsp_old_route, [("gsp_id", g)]) /\
  dispatch ("/" ++ g ++ "/forecast")
  = Some (h_get_forecasts_for_a_specific_gsp, [("gsp_id", g)]) /\
  dispatch ("/pvlive/" ++ g)
  = Some (h_get_truths_for_a_specific_gsp_old_route, [("gsp_id", g)]) /\
  dispatch ("/" ++ g ++ "/pvlive")
  = Some (h_get_truths_for_a_specific_gsp, [("gsp_id", g)]).
Proof.
  intros Hne Hg. destruct g as [| c g]; [ contradiction | ].
  cbn in Hg. apply andb_prop in Hg. destruct Hg as [Hc Hg].
  assert (Hlast : take_segment g = (g, "")).
  { rewrite <- (append_empty g) at 1. apply take_segment_digits; auto. }
  assert (Hfc : take_segment (g ++ "/forecast") = (g, "/forecast"))
    by (apply take_segment_digits; eauto).
  assert (Hpv : take_segment (g ++ "/pvlive") = (g, "/pvlive"))
    by (apply take_segment_digits; eauto).
  unfold dispatch, routes.
  destruct c as [[] [] [] [] [] [] [] []]; try discriminate Hc;
    repeat split; cbn; rewrite ?Hlast, ?Hfc, ?Hpv; reflexivity.
Qed.

End Routing.

Section OnOutage.

#[local] Existing Instance Demo.ext.
#[local] Open Scope Z_scope.
#[local] Open Scope string_scope.

Lemma demo_request_blind : request_blind Demo.env Demo.same_data.
Proof.
  unfold request_blind, agree, Demo.same_data. split.
  - intros s u r1 r2 w1 w2 Hw. cbn. split; [ reflexivity | assumption ].
  - intros X c w1 w2 Hw.
    destruct c; cbn; try (split; [ reflexivity | assumption ]).
    + destruct (gsp_id <? 0)%Z; cbn; split; (reflexivity || assumption).
    + destruct (gsp_id <? 0)%Z; cbn; split; (reflexivity || assumption).
    + rewrite Hw. split; reflexivity.
    + rewrite Hw. split; reflexivity.
Qed.

Lemma audit_failure_stops_handler_witness :
  result (run Outage.env
            (handler_body h_get_truths_for_all_gsps
               (Demo.params "alice" 0 Demo.no_query))
            Demo.empty)
  = Raised "api_request is not writable" /\
  count is_query
    (trace (run Outage.env
              (handler_body h_get_truths_for_all_gsps
                 (Demo.params "alice" 0 Demo.no_query))
              Demo.empty))
  = 0%nat.
Proof.
  rewrite (@audit_failure_stops_handler _ _ _ Outage.env
             h_get_truths_for_all_gsps (Demo.params "alice" 0 Demo.no_query)
             Demo.empty Demo.empty "api_request is not writable"
             eq_refl eq_refl).
  split; reflexivity.
Defined.

Lemma old_route_returns_canonical_response_witness :
  exists (kw : Kwargs) (w1 : Demo.DemoWorld),
    Demo.env (cache_check h_get_truths_for_a_specific_gsp_old_route kw) Demo.empty
    = (Returned None, w1) /\
    result (run Demo.env
              (endpoint h_get_truths_for_a_specific_gsp
                 (Demo.params "alice" 3 Demo.no_query)) w1)
    = Returned (Demo.yields None 3).
Proof.
  destruct (proj2 (@old_route_returns_canonical_response _ _ _ Demo.env
                     (Demo.params "alice" 3 Demo.no_query) Demo.empty)
                  (Demo.yields None 3) eq_refl)
    as [[kw Hhit] | Hmiss].
  - apply (f_equal (@List.length _)) in Hhit. vm_compute in Hhit.
    discriminate Hhit.
  - exact Hmiss.
Defined.

Lemma response_does_not_depend_on_request_witness :
  Demo.same_data Demo.empty Demo.busy /\
  result (run Demo.env
            (handler_body h_get_forecasts_for_a_specific_gsp
               (with_request "/v0/solar/GB/gsp/3/forecast"
                  (Demo.params "alice" 3 Demo.no_query)))
            Demo.empty)
  = result (run Demo.env
              (handler_body h_get_forecasts_for_a_specific_gsp
                 (with_request "/v0/solar/GB/gsp/3/forecast?x=1"
                    (Demo.params "alice" 3 Demo.no_query)))
              Demo.busy).
Proof.
  split; [ reflexivity | ].
  apply (@response_does_not_depend_on_request _ _ _ Demo.env Demo.same_data
           demo_request_blind h_get_forecasts_for_a_specific_gsp
           (Demo.params "alice" 3 Demo.no_query)
           "/v0/solar/GB/gsp/3/forecast" "/v0/solar/GB/gsp/3/forecast?x=1"
           Demo.empty Demo.busy eq_refl eq_refl).
Defined.

Lemma all_routes_take_exactly_their_paths_witness :
  option_map fst (dispatch "/pvlive/all") = Some h_get_truths_for_all_gsps.
Proof.
  apply (proj2 (proj2 (all_routes_take_exactly_their_paths "/pvlive/all"))).
  left. reflexivity.
Defined.

Lemma numeric_ids_reach_their_routes_witness :
  dispatch "/317/forecast"
  = Some (h_get_forecasts_for_a_specific_gsp, [("gsp_id", "317")]).
Proof.
  apply (proj1 (proj2 (@numeric_ids_reach_their_routes "317"
                         ltac:(discriminate) eq_refl))).
Defined.

End OnOutage.

(** * The routes as served, under the cache layer *)

Section Served.

Context {ext : Externals}.
Variables Exn World : Type.
Variable env : Env Exn World.

#[local] Open Scope string_scope.

(** A lookup that finds a stored response ends the call: nothing of the
    wrapped function runs. *)
Lemma run_cache_response_hit (h : Handler) (kw : Kwargs)
    (func : Prog (Response h)) (w w0 : World) (r : Response h) :
  env (cache_check h kw) w = (Returned (Some r), w0) ->
  run env (cache_response h kw func) w
  = {| result := Returned r; final := w0;
       trace := [Ev (cache_check h kw) (Returned (Some r))] |}.
Proof. intro H. cbn. rewrite H. reflexivity. Qed.

(** A lookup that finds nothing runs the wrapped function in the world
    the lookup left, and hands on its response once it is stored. *)
Lemma run_cache_response_miss (h : Handler) (kw : Kwargs)
    (func : Prog (Response h)) (w w0 : World) (r : Response h) :
  env (cache_check h kw) w = (Returned None, w0) ->
  (result (run env (cache_response h kw func) w) = Returned r <->
   result (run env func w0) = Returned r /\
   exists w1 : World,
     answers env (cache_populate h kw r) (final (run env func w0)) tt w1).
Proof.
  intro H. unfold cache_response, answers. cbn. rewrite H.
  rewrite after_result, run_bind.
  destruct (run env func w0) as [[r' | e] wf t]; cbn.
  - destruct (env (cache_populate h kw r') wf) as [[[] | e] w1] eqn:Hp; cbn.
    + split.
      * intro Hr. injection Hr as ->. split; [ reflexivity | eauto ].
      * intros [Hr _]. exact Hr.
    + split.
      * discriminate.
      * intros [Hr [w2 Hs]]. injection Hr as ->. rewrite Hp in Hs. discriminate.
  - split; [ discriminate | intros [Hr _]; discriminate ].
Qed.

(** C1, as the code has it: the function written for each old route is
    the very call of the canonical handler with identical parameters
    (same result, same calls, same final world); but the old route is
    served under a cache layer of its own.  When that layer's lookup
    finds a stored response the old route replays it and the canonical
    handler is not reached; when it finds nothing, the old route returns
    [r] exactly when the canonical route, called with identical
    parameters in the world the lookup left, returns [r] and [r] is
    stored. *)
Theorem old_routes_serve_canonical_unless_cached
    (request : Request) (session : Session) (user : Auth0User) (gsp_id : Z)
    (forecast_horizon_minutes : option Z) (regime : option string) (w : World) :
  let kwf := [("request", PyRequest request); ("gsp_id", PyInt gsp_id);
              ("session", PySession session);
              ("forecast_horizon_minutes", PyOptInt forecast_horizon_minutes);
              ("user", PyUser user)] in
  let kwt := [("request", PyRequest request); ("gsp_id", PyInt gsp_id);
              ("regime", PyOptStr regime); ("session", PySession session);
              ("user", PyUser user)] in
  let hf := h_get_forecasts_for_a_specific_gsp_old_route in
  let ht := h_get_truths_for_a_specific_gsp_old_route in
  let old_f := get_forecasts_for_a_specific_gsp_old_route
                 request session user gsp_id forecast_horizon_minutes in
  let new_f := get_forecasts_for_a_specific_gsp
                 request session user gsp_id forecast_horizon_minutes in
  let old_t := get_truths_for_a_specific_gsp_old_route
                 request session user gsp_id regime in
  let new_t := get_truths_for_a_specific_gsp
                 request session user gsp_id regime in
  (run env (get_forecasts_for_a_specific_gsp_old_route__wrapped
              request session user gsp_id forecast_horizon_minutes) w
   = run env new_f w /\
   run env (get_truths_for_a_specific_gsp_old_route__wrapped
              request session user gsp_id regime) w
   = run env new_t w) /\
  (forall (r : ForecastOrValues) (w0 : World),
     (env (cache_check hf kwf) w = (Returned (Some r), w0) ->
      run env old_f w
      = {| result := Returned r; final := w0;
           trace := [Ev (cache_check hf kwf) (Returned (Some r))] |}) /\
     (env (cache_check hf kwf) w = (Returned None, w0) ->
      (result (run env old_f w) = Returned r <->
       result (run env new_f w0) = Returned r /\
       exists w1 : World,
         answers env (cache_populate hf kwf r) (final (run env new_f w0)) tt w1))) /\
  (forall (r : list GSPYield) (w0 : World),
     (env (cache_check ht kwt) w = (Returned (Some r), w0) ->
      run env old_t w
      = {| result := Returned r; final := w0;
           trace := [Ev (cache_check ht kwt) (Returned (Some r))] |}) /\
     (env (cache_check ht kwt) w = (Returned None, w0) ->
      (result (run env old_t w) = Returned r <->
       result (run env new_t w0) = Returned r /\
       exists w1 : World,
         answers env (cache_populate ht kwt r) (final (run env new_t w0)) tt w1))).
Proof.
  cbv zeta. split; [ split; reflexivity | ].
  split; intros r w0; split; intro H.
  - exact (run_cache_response_hit _ H).
  - exact (@run_cache_response_miss
             h_get_forecasts_for_a_specific_gsp_old_route _ _ _ _ r H).
  - exact (run_cache_response_hit _ H).
  - exact (@run_cache_response_miss
             h_get_truths_for_a_specific_gsp_old_route _ _ _ _ r H).
Qed.

Ltac reply :=
  match goal with
  | |- context [@env ?X ?c ?w] =>
      let E := fresh "E" in
      destruct (@env X c w) as [[? | ?] ?] eqn:E; cbn in *
  end.

Ltac no_unit :=
  repeat match goal with u : unit |- _ => destruct u end.

(** C5, as the code has it: GET /forecast/all, with [historic] bound to
    the query parameter or to [True] when the request leaves it out.
    When the cache lookup finds a stored response the call returns it
    and does nothing else: no audit row, no query.  When it finds
    nothing the call returns [r] exactly when the audit call and the log
    line come back, the database answers
    [get_forecasts_from_database session historic] with some [f],
    [normalize] turns [f] into [r] and [r] is stored; such a call has
    made exactly one audit call and one query. *)
Theorem forecast_all_served
    (request : Request) (session : Session) (user : Auth0User) (gsp_id : Z)
    (q : Query) (w : World) (r : ManyForecasts) :
  let historic :=
    match q_historic q with Some b => Some b | None => Some true end in
  let kw := [("request", PyRequest request); ("historic", PyOptBool historic);
             ("session", PySession session); ("user", PyUser user)] in
  let h := h_get_all_available_forecasts in
  let o := run env (endpoint h (bind_params request session user gsp_id q)) w in
  (forall w0 : World,
     env (cache_check h kw) w = (Returned (Some r), w0) ->
     o = {| result := Returned r; final := w0;
            trace := [Ev (cache_check h kw) (Returned (Some r))] |}) /\
  (forall w0 : World,
     env (cache_check h kw) w = (Returned None, w0) ->
     (result o = Returned r <->
      exists (w1 w2 w3 w4 w5 : World) (f : ManyForecasts),
        answers env (save_api_call_to_db session user request) w0 tt w1 /\
        answers env
          (logger_info
             [Text "Get forecasts for all gsps. The option is historic=";
              Fmt (PyOptBool historic); Text " for user "; Fmt (PyUser user)])
          w1 tt w2 /\
        answers env (get_forecasts_from_database session historic) w2 f w3 /\
        answers env (normalize f) w3 r w4 /\
        answers env (cache_populate h kw r) w4 tt w5) /\
     (result o = Returned r ->
      count is_audit (trace o) = 1%nat /\ count is_query (trace o) = 1%nat)).
Proof.
  cbv zeta. split; intros w0 H.
  - exact (run_cache_response_hit _ H).
  - unfold answers. cbn in H |- *. rewrite H. cbn. split; [ split | ].
    + repeat reply; intro Hr; try discriminate; no_unit.
      injection Hr as ->. eauto 12.
    + intros (w1 & w2 & w3 & w4 & w5 & f & H1 & H2 & H3 & H4 & H5).
      rewrite H1; cbn. rewrite H2; cbn. rewrite H3; cbn. rewrite H4; cbn.
      rewrite H5; cbn. reflexivity.
    + repeat reply; intro Hr; try discriminate; split; reflexivity.
Qed.


(** C9, as the code has it: GET /pvlive/all and GET /{gsp_id}/pvlive.
    When the cache lookup finds a stored response the call returns it
    without a query.  When it finds nothing the call returns [r] exactly
    when the audit call and the log line come back, the database answers
    the truth query (session, GSP id where there is one, regime as it
    came) with [r], and [r] is stored: the list is the database layer's,
    with no step of this layer applied to it. *)
Theorem pvlive_served
    (request : Request) (session : Session) (user : Auth0User) (gsp_id : Z)
    (q : Query) (w : World) :
  let p := bind_params request session user gsp_id q in
  let kwa := [("request", PyRequest request); ("regime", PyOptStr (q_regime q));
              ("session", PySession session); ("user", PyUser user)] in
  let kwg := [("request", PyRequest request); ("gsp_id", PyInt gsp_id);
              ("regime", PyOptStr (q_regime q)); ("session", PySession session);
              ("user", PyUser user)] in
  let ha := h_get_truths_for_all_gsps in
  let hg := h_get_truths_for_a_specific_gsp in
  (forall (r : list LocationWithGSPYields) (w0 : World),
     (env (cache_check ha kwa) w = (Returned (Some r), w0) ->
      run env (endpoint ha p) w
      = {| result := Returned r; final := w0;
           trace := [Ev (cache_check ha kwa) (Returned (Some r))] |}) /\
     (env (cache_check ha kwa) w = (Returned None, w0) ->
      (result (run env (endpoint ha p) w) = Returned r <->
       exists w1 w2 w3 w4 : World,
         answers env (save_api_call_to_db session user request) w0 tt w1 /\
         answers env
           (logger_info
              [Text "Get PV Live estimates values for all gsp id and regime ";
               Fmt (PyOptStr (q_regime q)); Text " for user ";
               Fmt (PyUser user)])
           w1 tt w2 /\
         answers env
           (get_truth_values_for_all_gsps_from_database session (q_regime q))
           w2 r w3 /\
         answers env (cache_populate ha kwa r) w3 tt w4))) /\
  (forall (r : list GSPYield) (w0 : World),
     (env (cache_check hg kwg) w = (Returned (Some r), w0) ->
      run env (endpoint hg p) w
      = {| result := Returned r; final := w0;
           trace := [Ev (cache_check hg kwg) (Returned (Some r))] |}) /\
     (env (cache_check hg kwg) w = (Returned None, w0) ->
      (result (run env (endpoint hg p) w) = Returned r <->
       exists w1 w2 w3 w4 : World,
         answers env (save_api_call_to_db session user request) w0 tt w1 /\
         answers env
           (logger_info
              [Text "Get PV Live estimates values for gsp id ";
               Fmt (PyInt gsp_id); Text " and regime ";
               Fmt (PyOptStr (q_regime q)); Text " for user ";
               Fmt (PyUser user)])
           w1 tt w2 /\
         answers env
           (get_truth_values_for_a_specific_gsp_from_database
              session gsp_id (q_regime q))
           w2 r w3 /\
         answers env (cache_populate hg kwg r) w3 tt w4))).
Proof.
  cbv zeta. split; intros r w0; split; intro H.
  - exact (run_cache_response_hit _ H).
  - unfold answers. cbn in H |- *. rewrite H. cbn. split.
    + repeat reply; intro Hr; try discriminate; no_unit.
      injection Hr as ->. eauto 12.
    + intros (w1 & w2 & w3 & w4 & H1 & H2 & H3 & H4).
      rewrite H1; cbn. rewrite H2; cbn. rewrite H3; cbn. rewrite H4; cbn.
      reflexivity.
  - exact (run_cache_response_hit _ H).
  - unfold answers. cbn in H |- *. rewrite H. cbn. split.
    + repeat reply; intro Hr; try discriminate; no_unit.
      injection Hr as ->. eauto 12.
    + intros (w1 & w2 & w3 & w4 & H1 & H2 & H3 & H4).
      rewrite H1; cbn. rewrite H2; cbn. rewrite H3; cbn. rewrite H4; cbn.
      reflexivity.
Qed.

End Served.

(** * The served routes on the deployment whose cache entries expire *)

Section OnExpiring.

#[local] Existing Instance Demo.ext.
#[local] Open Scope Z_scope.
#[local] Open Scope string_scope.

(** At minute 150 the old route still replays the forecast it stored at
    minute 60, while the canonical route, called with identical
    parameters in the same world, fetches the renewed one. *)
Lemma old_route_differs_from_canonical :
  result (run Expiring.env
            (get_forecasts_for_a_specific_gsp_old_route
               "/v0/solar/GB/gsp" 7%nat "alice" 3 None)
            Expiring.diverged)
  <> result (run Expiring.env
               (get_forecasts_for_a_specific_gsp
                  "/v0/solar/GB/gsp" 7%nat "alice" 3 None)
               Expiring.diverged).
Proof. vm_compute. intro H. discriminate H. Qed.

Lemma old_routes_serve_canonical_unless_cached_witness :
  result (run Demo.env
            (get_forecasts_for_a_specific_gsp_old_route
               "/v0/solar/GB/gsp" 7%nat "alice" 3 None)
            Demo.empty)
  = Returned (IsValues (Demo.values_from 0 3)).
Proof.
  apply (proj2 (proj2 (proj1 (proj2
           (@old_routes_serve_canonical_unless_cached _ _ _ Demo.env
              "/v0/solar/GB/gsp" 7%nat "alice" 3 None None Demo.empty))
           (IsValues (Demo.values_from 0 3)) Demo.empty) eq_refl)).
  split; [ vm_compute; reflexivity | ].
  eexists. unfold answers. cbn. reflexivity.
Defined.

(** A second call of GET /forecast/all within the cache's time to live
    returns, makes no audit call and no query, leaves the audit count as
    it was, and its response is not what the database and [normalize]
    give at that moment. *)
Lemma cached_forecast_all_skips_audit_and_database :
  let w := Expiring.served_once h_get_all_available_forecasts in
  let o := run Expiring.env
             (endpoint h_get_all_available_forecasts Expiring.params) w in
  (exists r, result o = Returned r) /\
  count is_audit (trace o) = 0%nat /\
  count is_query (trace o) = 0%nat /\
  Expiring.audited (final o) = Expiring.audited w /\
  result o
  <> result (run Expiring.env
               (handler_body h_get_all_available_forecasts Expiring.params) w).
Proof.
  cbv zeta. split; [ eexists; vm_compute; reflexivity | ].
  repeat split; try (vm_compute; reflexivity).
  vm_compute. intro H. discriminate H.
Qed.

Lemma forecast_all_served_witness :
  count is_audit
    (trace (run Demo.env
              (endpoint h_get_all_available_forecasts
                 (Demo.params "alice" 0 Demo.no_query))
              Demo.empty))
  = 1%nat.
Proof.
  eapply proj1.
  eapply (proj2 (proj2 (@forecast_all_served _ _ _ Demo.env
                          "/v0/solar/GB/gsp" 7%nat "alice" 0
                          Demo.no_query Demo.empty _)
                       Demo.empty eq_refl)).
  vm_compute. reflexivity.
Defined.



(** A second call of GET /3/pvlive within the cache's time to live
    returns the stored list without a query, and it is not the list the
    database holds at that moment. *)
Lemma cached_pvlive_is_not_the_database_result :
  let w := Expiring.served_once h_get_truths_for_a_specific_gsp in
  let o := run Expiring.env
             (endpoint h_get_truths_for_a_specific_gsp Expiring.params) w in
  (exists r, result o = Returned r) /\
  count is_query (trace o) = 0%nat /\
  fst (Expiring.env
         (get_truth_values_for_a_specific_gsp_from_database 7%nat 3 None) w)
  <> result o.
Proof.
  cbv zeta. split; [ eexists; vm_compute; reflexivity | ].
  split; [ vm_compute; reflexivity | ].
  vm_compute. intro H. discriminate H.
Qed.

Lemma pvlive_served_witness :
  result (run Demo.env
            (endpoint h_get_truths_for_a_specific_gsp
               (Demo.params "alice" 3 (Demo.with_regime "day-after")))
            Demo.empty)
  = Returned (Demo.yields (Some "day-after") 3).
Proof.
  apply (proj2 (proj2 (proj2 (@pvlive_served _ _ _ Demo.env
                                "/v0/solar/GB/gsp" 7%nat "alice" 3
                                (Demo.with_regime "day-after") Demo.empty)
                             (Demo.yields (Some "day-after") 3) Demo.empty)
                      eq_refl)).
  unfold answers. repeat eexists; cbn; reflexivity.
Defined.

End OnExpiring.
